(** * LidarDescription: the LiDAR sensor descriptor of the Carla plugin

    Shallow embedding of [Settings/LidarDescription.h] ([ULidarDescription]):
    its twelve fields with their in-class defaults, [AcceptVisitor], and the
    [Load] / [Validate] pair whose declarations are in the header.

    Numeric types: [uint32] fields are [N]; [float] fields are modelled as
    rationals [Q] (every default is exactly representable, and the
    descriptor's logic is comparisons and constant assignments only). *)

From Stdlib Require Import QArith Lqa NArith String List Bool Lia.
Import ListNotations.

Open Scope Q_scope.

(** ** Data model (LidarDescription.h, lines 27-83) *)

Record ULidarDescription := mkLidarDescription {
  Channels : N;             (* uint32 Channels = 32u *)
  Range : Q;                (* float Range = 5000.0f *)
  PointsPerSecond : N;      (* uint32 PointsPerSecond = 56000u *)
  RotationFrequency : Q;    (* float RotationFrequency = 10.0f *)
  UpperFovLimit : Q;        (* float UpperFovLimit = 10.0f *)
  LowerFovLimit : Q;        (* float LowerFovLimit = -30.0f *)
  ShowDebugPoints : bool;   (* bool ShowDebugPoints = false *)
  GaussianNoise : Q;        (* float GaussianNoise = 0.0f *)
  DropOutPattern : Q;       (* float DropOutPattern = 1.0f *)
  LidarType : N;            (* uint32 LidarType = 1u *)
  DebugFlag : N;            (* uint32 DebugFlag = 2016u *)
  HorizonRange : Q          (* float HorizonRange = 360.0f *)
}.

(** The default-constructed descriptor: the in-class initialisers. *)
Definition default_lidar : ULidarDescription := {|
  Channels := 32%N;
  Range := 5000;
  PointsPerSecond := 56000%N;
  RotationFrequency := 10;
  UpperFovLimit := 10;
  LowerFovLimit := -30;
  ShowDebugPoints := false;
  GaussianNoise := 0;
  DropOutPattern := 1;
  LidarType := 1%N;
  DebugFlag := 2016%N;
  HorizonRange := 360
|}.

(** Field names, and the value of a field as the log and diagnostics show it. *)
Inductive Field :=
| FChannels | FRange | FPointsPerSecond | FRotationFrequency
| FUpperFovLimit | FLowerFovLimit | FShowDebugPoints | FGaussianNoise
| FDropOutPattern | FLidarType | FDebugFlag | FHorizonRange.

Definition all_fields : list Field :=
  [FChannels; FRange; FPointsPerSecond; FRotationFrequency;
   FUpperFovLimit; FLowerFovLimit; FShowDebugPoints; FGaussianNoise;
   FDropOutPattern; FLidarType; FDebugFlag; FHorizonRange].

Definition field_name (f : Field) : string :=
  match f with
  | FChannels => "Channels"
  | FRange => "Range"
  | FPointsPerSecond => "PointsPerSecond"
  | FRotationFrequency => "RotationFrequency"
  | FUpperFovLimit => "UpperFovLimit"
  | FLowerFovLimit => "LowerFovLimit"
  | FShowDebugPoints => "ShowDebugPoints"
  | FGaussianNoise => "GaussianNoise"
  | FDropOutPattern => "DropOutPattern"
  | FLidarType => "LidarType"
  | FDebugFlag => "DebugFlag"
  | FHorizonRange => "HorizonRange"
  end.

Inductive FieldValue :=
| VUInt (n : N)
| VFloat (q : Q)
| VBool (b : bool).

Definition get_field (f : Field) (d : ULidarDescription) : FieldValue :=
  match f with
  | FChannels => VUInt (Channels d)
  | FRange => VFloat (Range d)
  | FPointsPerSecond => VUInt (PointsPerSecond d)
  | FRotationFrequency => VFloat (RotationFrequency d)
  | FUpperFovLimit => VFloat (UpperFovLimit d)
  | FLowerFovLimit => VFloat (LowerFovLimit d)
  | FShowDebugPoints => VBool (ShowDebugPoints d)
  | FGaussianNoise => VFloat (GaussianNoise d)
  | FDropOutPattern => VFloat (DropOutPattern d)
  | FLidarType => VUInt (LidarType d)
  | FDebugFlag => VUInt (DebugFlag d)
  | FHorizonRange => VFloat (HorizonRange d)
  end.

(** Field assignments ([this->X = v]). *)
Definition set_Channels (v : N) (d : ULidarDescription) :=
  {| Channels := v; Range := Range d; PointsPerSecond := PointsPerSecond d;
     RotationFrequency := RotationFrequency d; UpperFovLimit := UpperFovLimit d;
     LowerFovLimit := LowerFovLimit d; ShowDebugPoints := ShowDebugPoints d;
     GaussianNoise := GaussianNoise d; DropOutPattern := DropOutPattern d;
     LidarType := LidarType d; DebugFlag := DebugFlag d;
     HorizonRange := HorizonRange d |}.
Definition set_Range (v : Q) (d : ULidarDescription) :=
  {| Channels := Channels d; Range := v; PointsPerSecond := PointsPerSecond d;
     RotationFrequency := RotationFrequency d; UpperFovLimit := UpperFovLimit d;
     LowerFovLimit := LowerFovLimit d; ShowDebugPoints := ShowDebugPoints d;
     GaussianNoise := GaussianNoise d; DropOutPattern := DropOutPattern d;
     LidarType := LidarType d; DebugFlag := DebugFlag d;
     HorizonRange := HorizonRange d |}.
Definition set_PointsPerSecond (v : N) (d : ULidarDescription) :=
  {| Channels := Channels d; Range := Range d; PointsPerSecond := v;
     RotationFrequency := RotationFrequency d; UpperFovLimit := UpperFovLimit d;
     LowerFovLimit := LowerFovLimit d; ShowDebugPoints := ShowDebugPoints d;
     GaussianNoise := GaussianNoise d; DropOutPattern := DropOutPattern d;
     LidarType := LidarType d; DebugFlag := DebugFlag d;
     HorizonRange := HorizonRange d |}.
Definition set_RotationFrequency (v : Q) (d : ULidarDescription) :=
  {| Channels := Channels d; Range := Range d; PointsPerSecond := PointsPerSecond d;
     RotationFrequency := v; UpperFovLimit := UpperFovLimit d;
     LowerFovLimit := LowerFovLimit d; ShowDebugPoints := ShowDebugPoints d;
     GaussianNoise := GaussianNoise d; DropOutPattern := DropOutPattern d;
     LidarType := LidarType d; DebugFlag := DebugFlag d;
     HorizonRange := HorizonRange d |}.
Definition set_UpperFovLimit (v : Q) (d : ULidarDescription) :=
  {| Channels := Channels d; Range := Range d; PointsPerSecond := PointsPerSecond d;
     RotationFrequency := RotationFrequency d; UpperFovLimit := v;
     LowerFovLimit := LowerFovLimit d; ShowDebugPoints := ShowDebugPoints d;
     GaussianNoise := GaussianNoise d; DropOutPattern := DropOutPattern d;
     LidarType := LidarType d; DebugFlag := DebugFlag d;
     HorizonRange := HorizonRange d |}.
Definition set_LowerFovLimit (v : Q) (d : ULidarDescription) :=
  {| Channels := Channels d; Range := Range d; PointsPerSecond := PointsPerSecond d;
     RotationFrequency := RotationFrequency d; UpperFovLimit := UpperFovLimit d;
     LowerFovLimit := v; ShowDebugPoints := ShowDebugPoints d;
     GaussianNoise := GaussianNoise d; DropOutPattern := DropOutPattern d;
     LidarType := LidarType d; DebugFlag := DebugFlag d;
     HorizonRange := HorizonRange d |}.
Definition set_ShowDebugPoints (v : bool) (d : ULidarDescription) :=
  {| Channels := Channels d; Range := Range d; PointsPerSecond := PointsPerSecond d;
     RotationFrequency := RotationFrequency d; UpperFovLimit := UpperFovLimit d;
     LowerFovLimit := LowerFovLimit d; ShowDebugPoints := v;
     GaussianNoise := GaussianNoise d; DropOutPattern := DropOutPattern d;
     LidarType := LidarType d; DebugFlag := DebugFlag d;
     HorizonRange := HorizonRange d |}.
Definition set_GaussianNoise (v : Q) (d : ULidarDescription) :=
  {| Channels := Channels d; Range := Range d; PointsPerSecond := PointsPerSecond d;
     RotationFrequency := RotationFrequency d; UpperFovLimit := UpperFovLimit d;
     LowerFovLimit := LowerFovLimit d; ShowDebugPoints := ShowDebugPoints d;
     GaussianNoise := v; DropOutPattern := DropOutPattern d;
     LidarType := LidarType d; DebugFlag := DebugFlag d;
     HorizonRange := HorizonRange d |}.
Definition set_DropOutPattern (v : Q) (d : ULidarDescription) :=
  {| Channels := Channels d; Range := Range d; PointsPerSecond := PointsPerSecond d;
     RotationFrequency := RotationFrequency d; UpperFovLimit := UpperFovLimit d;
     LowerFovLimit := LowerFovLimit d; ShowDebugPoints := ShowDebugPoints d;
     GaussianNoise := GaussianNoise d; DropOutPattern := v;
     LidarType := LidarType d; DebugFlag := DebugFlag d;
     HorizonRange := HorizonRange d |}.
Definition set_LidarType (v : N) (d : ULidarDescription) :=
  {| Channels := Channels d; Range := Range d; PointsPerSecond := PointsPerSecond d;
     RotationFrequency := RotationFrequency d; UpperFovLimit := UpperFovLimit d;
     LowerFovLimit := LowerFovLimit d; ShowDebugPoints := ShowDebugPoints d;
     GaussianNoise := GaussianNoise d; DropOutPattern := DropOutPattern d;
     LidarType := v; DebugFlag := DebugFlag d;
     HorizonRange := HorizonRange d |}.
Definition set_DebugFlag (v : N) (d : ULidarDescription) :=
  {| Channels := Channels d; Range := Range d; PointsPerSecond := PointsPerSecond d;
     RotationFrequency := RotationFrequency d; UpperFovLimit := UpperFovLimit d;
     LowerFovLimit := LowerFovLimit d; ShowDebugPoints := ShowDebugPoints d;
     GaussianNoise := GaussianNoise d; DropOutPattern := DropOutPattern d;
     LidarType := LidarType d; DebugFlag := v;
     HorizonRange := HorizonRange d |}.
Definition set_HorizonRange (v : Q) (d : ULidarDescription) :=
  {| Channels := Channels d; Range := Range d; PointsPerSecond := PointsPerSecond d;
     RotationFrequency := RotationFrequency d; UpperFovLimit := UpperFovLimit d;
     LowerFovLimit := LowerFovLimit d; ShowDebugPoints := ShowDebugPoints d;
     GaussianNoise := GaussianNoise d; DropOutPattern := DropOutPattern d;
     LidarType := LidarType d; DebugFlag := DebugFlag d;
     HorizonRange := v |}.

(** ** AcceptVisitor (LidarDescription.h, lines 16-19)

    [ISensorDescriptionVisitor] has one [Visit] overload per descriptor type;
    the one for [ULidarDescription] is modelled as a transformer of the
    visitor's own state. [AcceptVisitor] is [const]: the descriptor is
    returned as it came in. *)
Class ISensorDescriptionVisitor (V : Type) := {
  Visit : ULidarDescription -> V -> V
}.

Definition AcceptVisitor {V : Type} `{ISensorDescriptionVisitor V}
    (this : ULidarDescription) (Visitor : V) : ULidarDescription * V :=
  (this, Visit this Visitor).

(** ** Diagnostics, errors, and the descriptor monad

    [Load] and [Validate] mutate [*this] in place, [Validate] writes
    warnings to the log channel, and [Load] lets a failure of the config
    accessor reach its caller: a state, writer and error monad. *)
Inductive ConfigError :=
| MalformedValue (section key : string).

Inductive Result (A : Type) :=
| Ok (a : A)
| Err (e : ConfigError).
Arguments Ok {A} a.
Arguments Err {A} e.

Inductive DiagLevel := Info | Warning.

Record Diagnostic := mkDiagnostic {
  level : DiagLevel;
  diag_field : string;
  rejected : FieldValue;
  corrected : FieldValue
}.

Definition SensorM (A : Type) : Type :=
  ULidarDescription -> Result (A * ULidarDescription * list Diagnostic).

Definition ret {A} (a : A) : SensorM A := fun d => Ok (a, d, []).

Definition bind {A B} (c : SensorM A) (k : A -> SensorM B) : SensorM B :=
  fun d =>
    match c d with
    | Err e => Err e
    | Ok (a, d1, w1) =>
        match k a d1 with
        | Err e => Err e
        | Ok (b, d2, w2) => Ok (b, d2, w1 ++ w2)
        end
    end.

Notation "x <- c1 ;; c2" := (bind c1 (fun x => c2))
  (at level 100, c1 at next level, right associativity).
Notation "e1 ;; e2" := (bind e1 (fun _ => e2))
  (at level 100, right associativity).

Definition get : SensorM ULidarDescription := fun d => Ok (d, d, []).
Definition put (d' : ULidarDescription) : SensorM unit := fun _ => Ok (tt, d', []).
Definition warn (m : Diagnostic) : SensorM unit := fun d => Ok (tt, d, [m]).
Definition lift {A} (r : Result A) : SensorM A :=
  fun d => match r with Ok a => Ok (a, d, []) | Err e => Err e end.

(** ** Validate *)

Definition Qltb (x y : Q) : bool := negb (Qle_bool y x).

(** The smallest positive [float] (the denormal 2^-149). *)
Definition SmallestPositiveFloat : Q := 1 # (2 ^ 149)%positive.

(** Modelled from the spec: the body of [ULidarDescription::Validate]
    (LidarDescription.cpp, not in the repository snapshot). Spec section
    4.1: for each invariant of section 3, if it is violated, coerce the
    field to the nearest valid value and emit a warning-level diagnostic
    naming the field, the rejected value and the corrected value; never
    fail. One correction step: *)
Definition coerce (f : Field) (ok : ULidarDescription -> bool)
    (repair : ULidarDescription -> ULidarDescription) : SensorM unit :=
  d <- get ;;
  if ok d then ret tt
  else
    put (repair d) ;;
    warn (mkDiagnostic Warning (field_name f) (get_field f d) (get_field f (repair d))).

(** The invariants of section 3, each with its correction. *)
Definition Channels_ok (d : ULidarDescription) : bool := negb (Channels d =? 0)%N.
Definition Channels_fix (d : ULidarDescription) := set_Channels 1 d.

(** "negative Range -> smallest positive sentinel" *)
Definition Range_ok (d : ULidarDescription) : bool := Qltb 0 (Range d).
Definition Range_fix (d : ULidarDescription) := set_Range SmallestPositiveFloat d.

Definition PointsPerSecond_ok (d : ULidarDescription) : bool :=
  (Channels d <=? PointsPerSecond d)%N.
Definition PointsPerSecond_fix (d : ULidarDescription) :=
  set_PointsPerSecond (Channels d) d.

Definition RotationFrequency_ok (d : ULidarDescription) : bool :=
  Qltb 0 (RotationFrequency d).
Definition RotationFrequency_fix (d : ULidarDescription) :=
  set_RotationFrequency SmallestPositiveFloat d.

(** "UpperFovLimit < LowerFovLimit -> ... clamp upper to lower" *)
Definition FovLimits_ok (d : ULidarDescription) : bool :=
  Qle_bool (LowerFovLimit d) (UpperFovLimit d).
Definition FovLimits_fix (d : ULidarDescription) :=
  set_UpperFovLimit (LowerFovLimit d) d.

Definition DropOutPattern_ok (d : ULidarDescription) : bool :=
  Qle_bool 0 (DropOutPattern d) && Qle_bool (DropOutPattern d) 1.
Definition DropOutPattern_fix (d : ULidarDescription) :=
  set_DropOutPattern (if Qltb (DropOutPattern d) 0 then 0 else 1) d.

Definition GaussianNoise_ok (d : ULidarDescription) : bool :=
  Qle_bool 0 (GaussianNoise d).
Definition GaussianNoise_fix (d : ULidarDescription) := set_GaussianNoise 0 d.

Definition HorizonRange_ok (d : ULidarDescription) : bool :=
  Qltb 0 (HorizonRange d) && Qle_bool (HorizonRange d) 360.
Definition HorizonRange_fix (d : ULidarDescription) :=
  set_HorizonRange
    (if Qle_bool (HorizonRange d) 0 then SmallestPositiveFloat else 360) d.

(** Modelled from the spec: [ULidarDescription::Validate], the
    corrections in the order of the invariants of section 3. *)
Definition Validate : SensorM unit :=
  coerce FChannels Channels_ok Channels_fix ;;
  coerce FRange Range_ok Range_fix ;;
  coerce FPointsPerSecond PointsPerSecond_ok PointsPerSecond_fix ;;
  coerce FRotationFrequency RotationFrequency_ok RotationFrequency_fix ;;
  coerce FUpperFovLimit FovLimits_ok FovLimits_fix ;;
  coerce FDropOutPattern DropOutPattern_ok DropOutPattern_fix ;;
  coerce FGaussianNoise GaussianNoise_ok GaussianNoise_fix ;;
  coerce FHorizonRange HorizonRange_ok HorizonRange_fix.

(** The invariants that must hold after [Validate] (spec section 3). *)
Definition lidar_invariants (d : ULidarDescription) : Prop :=
  (1 <= Channels d)%N /\
  0 < Range d /\
  (Channels d <= PointsPerSecond d)%N /\
  0 < RotationFrequency d /\
  LowerFovLimit d <= UpperFovLimit d /\
  (0 <= DropOutPattern d /\ DropOutPattern d <= 1) /\
  0 <= GaussianNoise d /\
  (0 < HorizonRange d /\ HorizonRange d <= 360).

(** ** The configuration source ([FIniFile]) and Load *)

(** Modelled from the spec: the external config reader (section 6). An INI
    entry is a section, a key and the value text, already classified by the
    reader's scanner; [IniText] is text that is no number nor boolean. *)
Inductive IniValue :=
| IniUInt (n : N)
| IniFloat (q : Q)
| IniBool (b : bool)
| IniText (s : string).

Definition FIniFile : Type := list (string * string * IniValue).

(** The first entry of [section] with [key], if any. *)
Fixpoint ini_lookup (cfg : FIniFile) (section key : string) : option IniValue :=
  match cfg with
  | [] => None
  | (s, k, v) :: rest =>
      if String.eqb s section && String.eqb k key then Some v
      else ini_lookup rest section key
  end.

(** Modelled from the spec: the typed accessors of the config source.
    "Missing keys must return the supplied default rather than failing";
    malformed text is surfaced to the caller. *)
Definition GetUInt32 (cfg : FIniFile) (section key : string) (dflt : N) : Result N :=
  match ini_lookup cfg section key with
  | None => Ok dflt
  | Some (IniUInt n) => if (n <? 2 ^ 32)%N then Ok n else Err (MalformedValue section key)
  | Some _ => Err (MalformedValue section key)
  end.

Definition GetFloat (cfg : FIniFile) (section key : string) (dflt : Q) : Result Q :=
  match ini_lookup cfg section key with
  | None => Ok dflt
  | Some (IniFloat q) => Ok q
  | Some (IniUInt n) => Ok (Z.of_N n # 1)
  | Some _ => Err (MalformedValue section key)
  end.

Definition GetBool (cfg : FIniFile) (section key : string) (dflt : bool) : Result bool :=
  match ini_lookup cfg section key with
  | None => Ok dflt
  | Some (IniBool b) => Ok b
  | Some _ => Err (MalformedValue section key)
  end.

(** One key read into one field, with the field's current value as default:
    [Config.GetX(Section, Key, Field)]. *)
Definition load_key {T : Type} (accessor : FIniFile -> string -> string -> T -> Result T)
    (cfg : FIniFile) (section key : string) (getter : ULidarDescription -> T)
    (setter : T -> ULidarDescription -> ULidarDescription) : SensorM unit :=
  d <- get ;; v <- lift (accessor cfg section key (getter d)) ;; put (setter v d).

Definition load_uint32 := @load_key N GetUInt32.
Definition load_float := @load_key Q GetFloat.
Definition load_bool := @load_key bool GetBool.

(** Modelled from the spec: the body of [ULidarDescription::Load]
    (LidarDescription.cpp, not in the repository snapshot). Section 4.1:
    for each recognized key, look up the typed value in the section; if
    absent, retain the current field value. The keys are the spec's. *)
Definition Load (Config : FIniFile) (Section : string) : SensorM unit :=
  load_uint32 Config Section "Channels" Channels set_Channels ;;
  load_float Config Section "Range" Range set_Range ;;
  load_uint32 Config Section "PointsPerSecond" PointsPerSecond set_PointsPerSecond ;;
  load_float Config Section "RotationFrequency" RotationFrequency set_RotationFrequency ;;
  load_float Config Section "UpperFOVLimit" UpperFovLimit set_UpperFovLimit ;;
  load_float Config Section "LowerFOVLimit" LowerFovLimit set_LowerFovLimit ;;
  load_bool Config Section "ShowDebugPoints" ShowDebugPoints set_ShowDebugPoints ;;
  load_float Config Section "GaussianNoise" GaussianNoise set_GaussianNoise ;;
  load_float Config Section "DropOffPattern" DropOutPattern set_DropOutPattern ;;
  load_uint32 Config Section "LidarType" LidarType set_LidarType ;;
  load_uint32 Config Section "DebugFlag" DebugFlag set_DebugFlag ;;
  load_float Config Section "HorizonRange" HorizonRange set_HorizonRange.

(** The key [Load] reads for each field. *)
Definition ini_key (f : Field) : string :=
  match f with
  | FChannels => "Channels"
  | FRange => "Range"
  | FPointsPerSecond => "PointsPerSecond"
  | FRotationFrequency => "RotationFrequency"
  | FUpperFovLimit => "UpperFOVLimit"
  | FLowerFovLimit => "LowerFOVLimit"
  | FShowDebugPoints => "ShowDebugPoints"
  | FGaussianNoise => "GaussianNoise"
  | FDropOutPattern => "DropOffPattern"
  | FLidarType => "LidarType"
  | FDebugFlag => "DebugFlag"
  | FHorizonRange => "HorizonRange"
  end.

(** Diagnostics of a run that name a given field. *)
Definition count_naming (name : string) (ds : list Diagnostic) : nat :=
  length (filter (fun m => String.eqb (diag_field m) name) ds).

(** ** Sanity examples *)

Example validate_default :
  Validate default_lidar = Ok (tt, default_lidar, []).
Proof. vm_compute. reflexivity. Qed.

Example load_sample :
  match Load [("Lidar", "Channels", IniUInt 64); ("Lidar", "Range", IniFloat 10000);
              ("Other", "Range", IniText "x")]%string "Lidar" default_lidar with
  | Ok (_, d, []) => Channels d = 64%N /\ Range d = 10000 /\ HorizonRange d = 360
  | _ => False
  end.
Proof. vm_compute. repeat split. Qed.

Example validate_negative_range :
  match Validate (set_Range (-3) default_lidar) with
  | Ok (_, d, ds) => Range d = SmallestPositiveFloat /\ count_naming "Range"%string ds = 1%nat
  | _ => False
  end.
Proof. vm_compute. split; reflexivity. Qed.

(** ** Validate, step by step *)

(** The state after one correction step, and the diagnostics it emits. *)
Definition step (ok : ULidarDescription -> bool)
    (repair : ULidarDescription -> ULidarDescription) (d : ULidarDescription) :=
  if ok d then d else repair d.

Definition correction (f : Field) (ok : ULidarDescription -> bool)
    (repair : ULidarDescription -> ULidarDescription) (d : ULidarDescription)
    : list Diagnostic :=
  if ok d then []
  else [mkDiagnostic Warning (field_name f) (get_field f d) (get_field f (repair d))].

Definition validate_state (d : ULidarDescription) : ULidarDescription :=
  let d1 := step Channels_ok Channels_fix d in
  let d2 := step Range_ok Range_fix d1 in
  let d3 := step PointsPerSecond_ok PointsPerSecond_fix d2 in
  let d4 := step RotationFrequency_ok RotationFrequency_fix d3 in
  let d5 := step FovLimits_ok FovLimits_fix d4 in
  let d6 := step DropOutPattern_ok DropOutPattern_fix d5 in
  let d7 := step GaussianNoise_ok GaussianNoise_fix d6 in
  step HorizonRange_ok HorizonRange_fix d7.

Definition validate_diags (d : ULidarDescription) : list Diagnostic :=
  let d1 := step Channels_ok Channels_fix d in
  let d2 := step Range_ok Range_fix d1 in
  let d3 := step PointsPerSecond_ok PointsPerSecond_fix d2 in
  let d4 := step RotationFrequency_ok RotationFrequency_fix d3 in
  let d5 := step FovLimits_ok FovLimits_fix d4 in
  let d6 := step DropOutPattern_ok DropOutPattern_fix d5 in
  let d7 := step GaussianNoise_ok GaussianNoise_fix d6 in
  correction FChannels Channels_ok Channels_fix d ++
  correction FRange Range_ok Range_fix d1 ++
  correction FPointsPerSecond PointsPerSecond_ok PointsPerSecond_fix d2 ++
  correction FRotationFrequency RotationFrequency_ok RotationFrequency_fix d3 ++
  correction FUpperFovLimit FovLimits_ok FovLimits_fix d4 ++
  correction FDropOutPattern DropOutPattern_ok DropOutPattern_fix d5 ++
  correction FGaussianNoise GaussianNoise_ok GaussianNoise_fix d6 ++
  correction FHorizonRange HorizonRange_ok HorizonRange_fix d7.

Lemma coerce_run f ok repair d :
  coerce f ok repair d = Ok (tt, step ok repair d, correction f ok repair d).
Proof.
  unfold coerce, step, correction, bind, get, put, warn, ret; cbn.
  destruct (ok d); reflexivity.
Qed.

Lemma Validate_run d :
  Validate d = Ok (tt, validate_state d, validate_diags d).
Proof.
  unfold Validate, bind.
  repeat (rewrite coerce_run; cbv beta iota).
  reflexivity.
Qed.

Lemma step_frame {A} (P : ULidarDescription -> A) ok repair x :
  (forall y, P (repair y) = P y) -> P (step ok repair x) = P x.
Proof. intros H; unfold step; destruct (ok x); auto. Qed.

Lemma step_establish ok repair x :
  (forall y, ok (repair y) = true) -> ok (step ok repair x) = true.
Proof. intros H; unfold step; destruct (ok x) eqn:E; auto. Qed.

Lemma step_keep ok repair x : ok x = true -> step ok repair x = x.
Proof. intros H; unfold step; rewrite H; reflexivity. Qed.

Lemma step_fires ok repair x : ok x = false -> step ok repair x = repair x.
Proof. intros H; unfold step; rewrite H; reflexivity. Qed.

Lemma correction_keep f ok repair x : ok x = true -> correction f ok repair x = [].
Proof. intros H; unfold correction; rewrite H; reflexivity. Qed.

(** Each repair establishes its own invariant. *)
Lemma Channels_fix_ok y : Channels_ok (Channels_fix y) = true.
Proof. reflexivity. Qed.

Lemma Range_fix_ok y : Range_ok (Range_fix y) = true.
Proof. reflexivity. Qed.

Lemma PointsPerSecond_fix_ok y : PointsPerSecond_ok (PointsPerSecond_fix y) = true.
Proof. apply N.leb_refl. Qed.

Lemma RotationFrequency_fix_ok y : RotationFrequency_ok (RotationFrequency_fix y) = true.
Proof. reflexivity. Qed.

Lemma FovLimits_fix_ok y : FovLimits_ok (FovLimits_fix y) = true.
Proof. apply Qle_bool_iff, Qle_refl. Qed.

Lemma DropOutPattern_fix_ok y : DropOutPattern_ok (DropOutPattern_fix y) = true.
Proof.
  unfold DropOutPattern_ok, DropOutPattern_fix; cbn.
  destruct (Qltb (DropOutPattern y) 0); reflexivity.
Qed.

Lemma GaussianNoise_fix_ok y : GaussianNoise_ok (GaussianNoise_fix y) = true.
Proof. reflexivity. Qed.

Lemma HorizonRange_fix_ok y : HorizonRange_ok (HorizonRange_fix y) = true.
Proof.
  unfold HorizonRange_ok, HorizonRange_fix; cbn.
  destruct (Qle_bool (HorizonRange y) 0); reflexivity.
Qed.

Create HintDb repairs.
#[local] Hint Resolve Channels_fix_ok Range_fix_ok PointsPerSecond_fix_ok
  RotationFrequency_fix_ok FovLimits_fix_ok DropOutPattern_fix_ok
  GaussianNoise_fix_ok HorizonRange_fix_ok : repairs.

(** Peel the steps of [validate_state] off an observation [P]: a step whose
    repair does not change what [P] reads is dropped; the step of [P]'s own
    invariant establishes it. *)
Ltac peel_steps :=
  repeat match goal with
  | |- context [?P (step ?ok ?r ?x)] =>
      rewrite (step_frame P ok r x) by (intros []; reflexivity)
  end.

Ltac peel_steps_in H :=
  repeat match type of H with
  | context [?P (step ?ok ?r ?x)] =>
      rewrite (step_frame P ok r x) in H by (intros []; reflexivity)
  end.

Ltac establish :=
  peel_steps;
  match goal with
  | |- ?ok (step ?ok ?r ?x) = true => apply step_establish; auto with repairs
  end.

(** The boolean checks decide the invariants of section 3. *)
Definition all_ok (d : ULidarDescription) : bool :=
  Channels_ok d && Range_ok d && PointsPerSecond_ok d && RotationFrequency_ok d &&
  FovLimits_ok d && DropOutPattern_ok d && GaussianNoise_ok d && HorizonRange_ok d.

Lemma Qltb_iff x y : Qltb x y = true <-> x < y.
Proof.
  unfold Qltb; rewrite negb_true_iff; split; intros H.
  - apply Qnot_le_lt; intros H'; apply Qle_bool_iff in H'; congruence.
  - destruct (Qle_bool y x) eqn:E; [|reflexivity].
    apply Qle_bool_iff in E; exfalso; apply (Qlt_not_le _ _ H E).
Qed.

Lemma all_ok_iff d : all_ok d = true <-> lidar_invariants d.
Proof.
  unfold all_ok, lidar_invariants, Channels_ok, Range_ok, PointsPerSecond_ok,
    RotationFrequency_ok, FovLimits_ok, DropOutPattern_ok, GaussianNoise_ok,
    HorizonRange_ok.
  rewrite !andb_true_iff, negb_true_iff, N.eqb_neq, N.leb_le, !Qltb_iff, !Qle_bool_iff.
  split.
  - intros [[[[[[[H1 H2] H3] H4] H5] [H6 H6']] H7] [H8 H8']].
    repeat split; auto; lia.
  - intros (H1 & H2 & H3 & H4 & H5 & [H6 H6'] & H7 & [H8 H8']).
    repeat split; auto; lia.
Qed.

Lemma validate_state_ok d : all_ok (validate_state d) = true.
Proof.
  unfold all_ok, validate_state; cbv zeta.
  rewrite !andb_true_iff; repeat split; establish.
Qed.

Lemma validate_keeps_valid d :
  all_ok d = true -> validate_state d = d /\ validate_diags d = [].
Proof.
  unfold all_ok; rewrite !andb_true_iff.
  intros [[[[[[[E1 E2] E3] E4] E5] E6] E7] E8].
  unfold validate_state, validate_diags; cbv zeta.
  rewrite (step_keep Channels_ok Channels_fix d E1),
    (step_keep Range_ok Range_fix d E2),
    (step_keep PointsPerSecond_ok PointsPerSecond_fix d E3),
    (step_keep RotationFrequency_ok RotationFrequency_fix d E4),
    (step_keep FovLimits_ok FovLimits_fix d E5),
    (step_keep DropOutPattern_ok DropOutPattern_fix d E6),
    (step_keep GaussianNoise_ok GaussianNoise_fix d E7),
    (step_keep HorizonRange_ok HorizonRange_fix d E8).
  rewrite !correction_keep by assumption.
  split; reflexivity.
Qed.

Lemma correction_warning f ok repair x :
  Forall (fun m => level m = Warning) (correction f ok repair x).
Proof. unfold correction; destruct (ok x); repeat constructor. Qed.

(** A field that [Validate] changes was changed by its own correction step,
    which logged the old and the new value. *)
Ltac changed_field_logged Hne :=
  unfold validate_state, validate_diags in *; cbv zeta in *;
  peel_steps_in Hne;
  match type of Hne with
  | context [get_field _ (step ?ok ?r ?x)] =>
      let E := fresh "E" in
      destruct (ok x) eqn:E;
      [ rewrite (step_keep ok r x E) in Hne; peel_steps_in Hne; contradiction
      | let hit := unfold correction; rewrite E; left;
                   peel_steps; rewrite (step_fires ok r x E); reflexivity in
        repeat (apply in_or_app; first [ left; hit | right ]);
        try hit ]
  | _ => contradiction
  end.

(** How many diagnostics of one correction name a given field. *)
Lemma count_naming_app name l1 l2 :
  count_naming name (l1 ++ l2) = (count_naming name l1 + count_naming name l2)%nat.
Proof. unfold count_naming; rewrite filter_app, length_app; reflexivity. Qed.

Lemma count_naming_correction name f ok repair x :
  count_naming name (correction f ok repair x) =
  if String.eqb (field_name f) name then (if ok x then 0 else 1)%nat else 0%nat.
Proof.
  unfold count_naming, correction.
  destruct (ok x); cbn; destruct (String.eqb (field_name f) name); reflexivity.
Qed.

(** ** Load, key by key *)

(** What [Load] relies on from an accessor of the config source: a missing
    key yields the supplied default, and a failure names the key read. *)
Definition accessor_contract {T : Type}
    (accessor : FIniFile -> string -> string -> T -> Result T) : Prop :=
  (forall cfg section key dflt,
      ini_lookup cfg section key = None -> accessor cfg section key dflt = Ok dflt) /\
  (forall cfg section key dflt e,
      accessor cfg section key dflt = Err e -> e = MalformedValue section key).

Lemma GetUInt32_contract : accessor_contract GetUInt32.
Proof.
  split.
  - intros cfg section key dflt H; unfold GetUInt32; rewrite H; reflexivity.
  - intros cfg section key dflt e; unfold GetUInt32.
    destruct (ini_lookup cfg section key) as [[n| | |]|];
      try destruct (n <? 2 ^ 32)%N; congruence.
Qed.

Lemma GetFloat_contract : accessor_contract GetFloat.
Proof.
  split.
  - intros cfg section key dflt H; unfold GetFloat; rewrite H; reflexivity.
  - intros cfg section key dflt e; unfold GetFloat.
    destruct (ini_lookup cfg section key) as [[| | |]|]; congruence.
Qed.

Lemma GetBool_contract : accessor_contract GetBool.
Proof.
  split.
  - intros cfg section key dflt H; unfold GetBool; rewrite H; reflexivity.
  - intros cfg section key dflt e; unfold GetBool.
    destruct (ini_lookup cfg section key) as [[| | |]|]; congruence.
Qed.

#[local] Hint Resolve GetUInt32_contract GetFloat_contract GetBool_contract : core.

(** A computation that leaves field [f] as it found it, and one that never
    fails with the error [e0]. *)
Definition frames {A : Type} (f : Field) (c : SensorM A) : Prop :=
  forall d a d' w, c d = Ok (a, d', w) -> get_field f d' = get_field f d.

Definition avoids {A : Type} (e0 : ConfigError) (c : SensorM A) : Prop :=
  forall d e, c d = Err e -> e <> e0.

Lemma bind_frames {A B : Type} f (c : SensorM A) (k : A -> SensorM B) :
  frames f c -> (forall a, frames f (k a)) -> frames f (bind c k).
Proof.
  intros Hc Hk d b d2 w; unfold bind.
  destruct (c d) as [[[a d1] w1]|e] eqn:E1; [|discriminate].
  destruct (k a d1) as [[[b' d2'] w2]|e] eqn:E2; [|discriminate].
  intros H; injection H as <- <- <-.
  rewrite (Hk a _ _ _ _ E2); exact (Hc _ _ _ _ E1).
Qed.

Lemma bind_avoids {A B : Type} e0 (c : SensorM A) (k : A -> SensorM B) :
  avoids e0 c -> (forall a, avoids e0 (k a)) -> avoids e0 (bind c k).
Proof.
  intros Hc Hk d e; unfold bind.
  destruct (c d) as [[[a d1] w1]|e1] eqn:E1; [|intros H; injection H as <-; exact (Hc _ _ E1)].
  destruct (k a d1) as [[[b d2] w2]|e2] eqn:E2; [discriminate|].
  intros H; injection H as <-; exact (Hk _ _ _ E2).
Qed.

Lemma load_key_run {T : Type} accessor cfg section key
    (getter : ULidarDescription -> T) setter d :
  load_key accessor cfg section key getter setter d =
  match accessor cfg section key (getter d) with
  | Ok v => Ok (tt, setter v d, [])
  | Err e => Err e
  end.
Proof.
  unfold load_key, bind, get, lift, put; cbn.
  destruct (accessor cfg section key (getter d)); reflexivity.
Qed.

(** Reading a key into another field leaves [f] alone. *)
Lemma load_key_frames_other {T : Type} accessor cfg section key
    (getter : ULidarDescription -> T) setter f :
  (forall v y, get_field f (setter v y) = get_field f y) ->
  frames f (load_key accessor cfg section key getter setter).
Proof.
  intros Hs d a d' w; rewrite load_key_run.
  destruct (accessor cfg section key (getter d)); [|discriminate].
  intros H; injection H as _ <- _; apply Hs.
Qed.

(** Reading an absent key writes the field's own value back. *)
Lemma load_key_absent_run {T : Type} accessor cfg section key
    (getter : ULidarDescription -> T) setter d :
  accessor_contract accessor -> ini_lookup cfg section key = None ->
  (forall y, setter (getter y) y = y) ->
  load_key accessor cfg section key getter setter d = Ok (tt, d, []).
Proof.
  intros [Habs _] Hnone Hsg; rewrite load_key_run, (Habs _ _ _ _ Hnone), Hsg.
  reflexivity.
Qed.

Lemma load_key_frames_absent {T : Type} accessor cfg section key
    (getter : ULidarDescription -> T) setter f :
  accessor_contract accessor -> ini_lookup cfg section key = None ->
  (forall y, setter (getter y) y = y) ->
  frames f (load_key accessor cfg section key getter setter).
Proof.
  intros Hc Hnone Hsg d a d' w; rewrite (load_key_absent_run _ _ _ _ _ _ d Hc Hnone Hsg).
  intros H; injection H as _ <- _; reflexivity.
Qed.

(** A read fails only with the key it reads. *)
Lemma load_key_avoids_other {T : Type} accessor cfg section key
    (getter : ULidarDescription -> T) setter k0 :
  accessor_contract accessor -> key <> k0 ->
  avoids (MalformedValue section k0) (load_key accessor cfg section key getter setter).
Proof.
  intros [_ Herr] Hk d e; rewrite load_key_run.
  destruct (accessor cfg section key (getter d)) as [v|e'] eqn:E; [discriminate|].
  intros H; injection H as <-; rewrite (Herr _ _ _ _ _ E).
  intros H; injection H as H; exact (Hk H).
Qed.

Lemma load_key_avoids_absent {T : Type} accessor cfg section key
    (getter : ULidarDescription -> T) setter e0 :
  accessor_contract accessor -> ini_lookup cfg section key = None ->
  avoids e0 (load_key accessor cfg section key getter setter).
Proof.
  intros [Habs _] Hnone d e; rewrite load_key_run, (Habs _ _ _ _ Hnone).
  discriminate.
Qed.

Ltac load_leaf Hnone :=
  first
  [ apply load_key_frames_other; intros ? []; reflexivity
  | apply load_key_frames_absent; [auto | exact Hnone | intros []; reflexivity]
  | apply load_key_avoids_other; [auto | discriminate]
  | apply load_key_avoids_absent; [auto | exact Hnone] ].

Ltac load_steps Hnone :=
  unfold Load, load_uint32, load_float, load_bool;
  repeat first
    [ load_leaf Hnone
    | apply bind_frames; [|intros _]
    | apply bind_avoids; [|intros _] ].

(** ** The claims *)

(** C1: for every descriptor, [Validate] returns and afterwards all the
    invariants of section 3 hold at once: Channels >= 1, Range > 0,
    PointsPerSecond >= Channels, RotationFrequency > 0,
    UpperFovLimit >= LowerFovLimit, 0 <= DropOutPattern <= 1,
    GaussianNoise >= 0 and 0 < HorizonRange <= 360. *)
Theorem Validate_establishes_invariants (d : ULidarDescription) :
  match Validate d with
  | Ok (_, d', _) => lidar_invariants d'
  | Err _ => False
  end.
Proof.
  rewrite Validate_run. apply all_ok_iff, validate_state_ok.
Qed.

(** C4: on a descriptor that already satisfies every invariant of
    section 3, [Validate] changes no field and emits no diagnostic. *)
Theorem Validate_idempotent_on_valid (d : ULidarDescription) :
  lidar_invariants d -> Validate d = Ok (tt, d, []).
Proof.
  intros H; apply all_ok_iff in H.
  rewrite Validate_run; destruct (validate_keeps_valid d H) as [-> ->].
  reflexivity.
Qed.

Lemma Validate_idempotent_on_valid_witness :
  lidar_invariants default_lidar /\ Validate default_lidar = Ok (tt, default_lidar, []).
Proof.
  assert (H : lidar_invariants default_lidar) by (apply all_ok_iff; reflexivity).
  split; [exact H | apply (Validate_idempotent_on_valid default_lidar H)].
Defined.

(** C6: when Range is negative, [Validate] yields Range > 0 and emits
    exactly one diagnostic naming the field Range. *)
Theorem Validate_negative_Range (d : ULidarDescription) :
  Range d < 0 ->
  match Validate d with
  | Ok (_, d', ds) => 0 < Range d' /\ count_naming "Range" ds = 1%nat
  | Err _ => False
  end.
Proof.
  intros Hneg; rewrite Validate_run; split.
  - pose proof (validate_state_ok d) as H; apply all_ok_iff in H.
    destruct H as (_ & H & _); exact H.
  - unfold validate_diags; cbv zeta.
    rewrite !count_naming_app, !count_naming_correction; cbn - [step Range_ok].
    rewrite (step_frame Range_ok) by (intros []; reflexivity).
    assert (E : Range_ok d = false).
    { unfold Range_ok; destruct (Qltb 0 (Range d)) eqn:E; [|reflexivity].
      apply Qltb_iff in E; exfalso; apply (Qlt_irrefl 0), (Qlt_trans _ _ _ E Hneg). }
    rewrite E; reflexivity.
Qed.

Lemma Validate_negative_Range_witness :
  Range (set_Range (-1) default_lidar) < 0 /\
  match Validate (set_Range (-1) default_lidar) with
  | Ok (_, d', ds) => 0 < Range d' /\ count_naming "Range" ds = 1%nat
  | Err _ => False
  end.
Proof.
  assert (H : Range (set_Range (-1) default_lidar) < 0) by reflexivity.
  split; [exact H | apply (Validate_negative_Range _ H)].
Defined.

(** C7: with the inverted vertical field of view UpperFovLimit = -5,
    LowerFovLimit = 10, [Validate] yields UpperFovLimit >= LowerFovLimit. *)
Theorem Validate_inverted_fov (d : ULidarDescription) :
  UpperFovLimit d == -5 -> LowerFovLimit d == 10 ->
  match Validate d with
  | Ok (_, d', _) => LowerFovLimit d' <= UpperFovLimit d'
  | Err _ => False
  end.
Proof.
  intros _ _; rewrite Validate_run.
  pose proof (validate_state_ok d) as H; apply all_ok_iff in H.
  destruct H as (_ & _ & _ & _ & H & _); exact H.
Qed.

Lemma Validate_inverted_fov_witness :
  let d := set_UpperFovLimit (-5) (set_LowerFovLimit 10 default_lidar) in
  UpperFovLimit d == -5 /\ LowerFovLimit d == 10 /\
  match Validate d with
  | Ok (_, d', _) => LowerFovLimit d' <= UpperFovLimit d'
  | Err _ => False
  end.
Proof.
  intros d.
  assert (H1 : UpperFovLimit d == -5) by reflexivity.
  assert (H2 : LowerFovLimit d == 10) by reflexivity.
  split; [exact H1 | split; [exact H2 | apply (Validate_inverted_fov d H1 H2)]].
Defined.

(** C8: with DropOutPattern = 1.5, [Validate] clamps DropOutPattern to 1.0. *)
Theorem Validate_clamps_DropOutPattern (d : ULidarDescription) :
  DropOutPattern d == 3 # 2 ->
  match Validate d with
  | Ok (_, d', _) => DropOutPattern d' = 1
  | Err _ => False
  end.
Proof.
  intros H; rewrite Validate_run; unfold validate_state; cbv zeta.
  peel_steps.
  rewrite step_fires.
  - unfold DropOutPattern_fix; cbn [DropOutPattern set_DropOutPattern].
    peel_steps.
    destruct (Qltb (DropOutPattern d) 0) eqn:E; [|reflexivity].
    apply Qltb_iff in E; lra.
  - peel_steps. unfold DropOutPattern_ok.
    destruct (Qle_bool (DropOutPattern d) 1) eqn:E; [|apply andb_false_r].
    apply Qle_bool_iff in E; lra.
Qed.

Lemma Validate_clamps_DropOutPattern_witness :
  DropOutPattern (set_DropOutPattern (3 # 2) default_lidar) == 3 # 2 /\
  match Validate (set_DropOutPattern (3 # 2) default_lidar) with
  | Ok (_, d', _) => DropOutPattern d' = 1
  | Err _ => False
  end.
Proof.
  assert (H : DropOutPattern (set_DropOutPattern (3 # 2) default_lidar) == 3 # 2)
    by reflexivity.
  split; [exact H | apply (Validate_clamps_DropOutPattern _ H)].
Defined.

(** C9: [AcceptVisitor] calls the visitor's [Visit] on the descriptor itself
    and has no other effect: the descriptor comes back unchanged. *)
Theorem AcceptVisitor_dispatch {V : Type} `{ISensorDescriptionVisitor V}
    (this : ULidarDescription) (Visitor : V) :
  AcceptVisitor this Visitor = (this, Visit this Visitor).
Proof. reflexivity. Qed.

(** C10: the default-constructed descriptor satisfies every invariant of
    section 3, and [Validate] leaves it as it is, with no diagnostic. *)
Theorem default_satisfies_invariants :
  lidar_invariants default_lidar /\ Validate default_lidar = Ok (tt, default_lidar, []).
Proof.
  assert (H : all_ok default_lidar = true) by reflexivity.
  split; [apply all_ok_iff; exact H|].
  rewrite Validate_run; destruct (validate_keeps_valid _ H) as [-> ->]; reflexivity.
Qed.

(** C2: for every state of the descriptor, [Validate] terminates normally
    (it never reports an error); it only emits warning-level diagnostics,
    leaves the descriptor satisfying the invariants, and every field it
    changes is a field it coerced, with a warning naming the field, the
    rejected value and the corrected value. *)
Theorem Validate_never_fails (d : ULidarDescription) :
  exists d' ds,
    Validate d = Ok (tt, d', ds) /\
    Forall (fun m => level m = Warning) ds /\
    lidar_invariants d' /\
    (forall f, get_field f d' <> get_field f d ->
       In (mkDiagnostic Warning (field_name f) (get_field f d) (get_field f d')) ds).
Proof.
  exists (validate_state d), (validate_diags d).
  split; [apply Validate_run|].
  split.
  { unfold validate_diags; cbv zeta.
    repeat (apply Forall_app; split); apply correction_warning. }
  split; [apply all_ok_iff, validate_state_ok|].
  intros f Hne; destruct f; changed_field_logged Hne.
Qed.

(** C3: loading a section in which none of the recognized keys is present
    into a default-constructed descriptor yields exactly the documented
    defaults: Channels=32, Range=5000.0, PointsPerSecond=56000,
    RotationFrequency=10.0, UpperFovLimit=10.0, LowerFovLimit=-30.0,
    ShowDebugPoints=false, GaussianNoise=0.0, DropOutPattern=1.0,
    LidarType=1, DebugFlag=2016, HorizonRange=360.0. *)
Theorem Load_empty_section_defaults (Config : FIniFile) (Section : string) :
  (forall f, ini_lookup Config Section (ini_key f) = None) ->
  Load Config Section default_lidar = Ok (tt, default_lidar, []) /\
  default_lidar =
    {| Channels := 32; Range := 5000; PointsPerSecond := 56000;
       RotationFrequency := 10; UpperFovLimit := 10; LowerFovLimit := -30;
       ShowDebugPoints := false; GaussianNoise := 0; DropOutPattern := 1;
       LidarType := 1; DebugFlag := 2016; HorizonRange := 360 |}.
Proof.
  intros H; split; [|reflexivity].
  pose proof (H FChannels) as H1; pose proof (H FRange) as H2;
  pose proof (H FPointsPerSecond) as H3; pose proof (H FRotationFrequency) as H4;
  pose proof (H FUpperFovLimit) as H5; pose proof (H FLowerFovLimit) as H6;
  pose proof (H FShowDebugPoints) as H7; pose proof (H FGaussianNoise) as H8;
  pose proof (H FDropOutPattern) as H9; pose proof (H FLidarType) as H10;
  pose proof (H FDebugFlag) as H11; pose proof (H FHorizonRange) as H12;
  cbn [ini_key] in *.
  unfold Load, load_uint32, load_float, load_bool, bind.
  repeat (rewrite load_key_absent_run by (auto || assumption || (intros []; reflexivity));
          cbv beta iota).
  reflexivity.
Qed.

Lemma Load_empty_section_defaults_witness :
  (forall f, ini_lookup [("Camera", "Range", IniFloat 10)]%string "Lidar"%string (ini_key f) = None) /\
  Load [("Camera", "Range", IniFloat 10)]%string "Lidar"%string default_lidar
    = Ok (tt, default_lidar, []) /\
  default_lidar =
    {| Channels := 32; Range := 5000; PointsPerSecond := 56000;
       RotationFrequency := 10; UpperFovLimit := 10; LowerFovLimit := -30;
       ShowDebugPoints := false; GaussianNoise := 0; DropOutPattern := 1;
       LidarType := 1; DebugFlag := 2016; HorizonRange := 360 |}.
Proof.
  assert (H : forall f, ini_lookup [("Camera", "Range", IniFloat 10)]%string "Lidar"%string
                          (ini_key f) = None) by (intros []; reflexivity).
  split; [exact H | apply (Load_empty_section_defaults _ _ H)].
Defined.

(** C5: for every section and every recognized key absent from it, [Load]
    keeps the field's current value, and a failure of [Load] (from a
    malformed value of another key) is never an error about that key. *)
Theorem Load_missing_key_keeps_field (Config : FIniFile) (Section : string)
    (f : Field) (d : ULidarDescription) :
  ini_lookup Config Section (ini_key f) = None ->
  (forall d' w, Load Config Section d = Ok (tt, d', w) -> get_field f d' = get_field f d) /\
  (forall e, Load Config Section d = Err e -> e <> MalformedValue Section (ini_key f)).
Proof.
  intros Hnone; split.
  - enough (Hf : frames f (Load Config Section)) by (intros d' w; apply Hf).
    destruct f; cbn [ini_key] in Hnone; load_steps Hnone.
  - enough (Ha : avoids (MalformedValue Section (ini_key f)) (Load Config Section))
      by (intros e; apply Ha).
    destruct f; cbn [ini_key] in *; load_steps Hnone.
Qed.

Lemma Load_missing_key_keeps_field_witness :
  let cfg := [("Lidar", "Channels", IniUInt 64); ("Lidar", "DebugFlag", IniText "on")]%string in
  ini_lookup cfg "Lidar"%string (ini_key FRange) = None /\
  (forall d' w, Load cfg "Lidar"%string default_lidar = Ok (tt, d', w) ->
     get_field FRange d' = get_field FRange default_lidar) /\
  (forall e, Load cfg "Lidar"%string default_lidar = Err e ->
     e <> MalformedValue "Lidar"%string (ini_key FRange)).
Proof.
  intros cfg.
  assert (H : ini_lookup cfg "Lidar"%string (ini_key FRange) = None) by reflexivity.
  split; [exact H | apply (Load_missing_key_keeps_field cfg _ FRange default_lidar H)].
Defined.
